(** * proxy.py: service registry and proxy dispatch

    A shallow embedding of [proxy.py]: the module-level table
    [real_objects], the two registry operations [register_module] and
    [unregister_module] (both wrapped by [synchronized(proxy_lock)]), and
    the class [ProxyObject] with its attribute hook [__getattr__] and the
    call path [call_proxy_method] / [_call_sync] / [_call_async].

    The table is threaded explicitly: every function that reads
    [real_objects] takes the table as an argument, and the two operations
    that write it return the new table. *)

From stdpp Require Import gmap strings list fin_maps.
From Stdlib Require Import ZArith.

Local Open Scope string_scope.

(** ** Python values, exceptions and results *)

(** Values passed to and returned from the methods of registered modules.
    [VFun] is a reference to a callable (a callback passed by keyword). *)
Inductive Value : Type :=
| VNone
| VBool (b : bool)
| VInt (z : Z)
| VStr (s : string)
| VFun (f : nat).

(** The two exception classes the file declares, the exception it raises
    from [_call_async], and the interpreter's own exceptions that the code
    can run into: a failed attribute lookup, a keyword argument that names
    a parameter already bound by position, and a call of a member that is
    not callable.  [OtherError] stands for whatever else a registered
    module's own code raises. *)
Inductive Exn : Type :=
| ModuleUnavailableException (msg : string)
| NoSuchMethodException (msg : string)
| NotImplementedError (msg : string)
| AttributeError (attr : string)
| TypeError_multiple_values (func : string)
| TypeError_not_callable
| OtherError (tag : string).

Inductive PyResult (A : Type) : Type :=
| Return (a : A)
| Raise (e : Exn).
Arguments Return {A} a.
Arguments Raise {A} e.

Definition bind {A B : Type} (r : PyResult A) (k : A -> PyResult B) : PyResult B :=
  match r with
  | Return a => k a
  | Raise e => Raise e
  end.

Notation "'do' x <- r ; k" := (bind r (fun x => k))
  (at level 10, x name, r at level 100, k at level 200).

(** Keyword arguments of a call ([**kwargs]): keyword and value. *)
Abbreviation Kwargs := (list (string * Value)).

(** ['key' in kwargs] *)
Definition kw_in (key : string) (kwargs : Kwargs) : bool :=
  existsb (fun kv => bool_decide (kv.1 = key)) kwargs.

(** ** Registered objects *)

(** The identity of an object ([id(obj)]); [IdNone] is the identity of the
    [None] singleton. *)
Inductive Ident : Type :=
| IdNone
| IdObj (n : nat).

Global Instance Ident_eq_dec : EqDecision Ident.
Proof. solve_decision. Defined.

(** What a rich-comparison method answers. *)
Inductive EqOutcome : Type :=
| NotImplemented
| Truth (b : bool)
| EqRaise (e : Exn).

(** A member of an instance: plain data, or a bound method, which maps the
    positional and keyword arguments of a call to a result or to the
    exception it raises. *)
Inductive Attr : Type :=
| AData (v : Value)
| AMethod (f : list Value -> Kwargs -> PyResult Value).

(** An instance of some class.  [inst_eq] is the class's own [__eq__] when
    it defines one (applied to the identity of the other operand); [None]
    when it inherits [object.__eq__]. *)
Record Instance : Type := mkInstance {
  inst_id : nat;
  inst_eq : option (Ident -> EqOutcome);
  inst_attrs : gmap string Attr
}.

(** Anything [register_module] can be handed as [module]: [None] or an
    instance. *)
Inductive PyObj : Type :=
| PyNone
| PyInst (i : Instance).

Definition ident (o : PyObj) : Ident :=
  match o with
  | PyNone => IdNone
  | PyInst i => IdObj (inst_id i)
  end.

(** [a is b] *)
Definition py_is (a b : PyObj) : bool := bool_decide (ident a = ident b).

(** [obj is None] *)
Definition is_None (o : PyObj) : bool :=
  match o with
  | PyNone => true
  | PyInst _ => false
  end.

(** [object.__eq__]: identical operands are equal, anything else is left
    to the other operand. *)
Definition object_eq (self : Ident) (other : Ident) : EqOutcome :=
  if bool_decide (self = other) then Truth true else NotImplemented.

Definition eq_method (o : PyObj) : Ident -> EqOutcome :=
  match o with
  | PyNone => object_eq IdNone
  | PyInst i =>
      match inst_eq i with
      | Some f => f
      | None => object_eq (IdObj (inst_id i))
      end
  end.

(** [a == b], as a truth value: the left operand's [__eq__], then the
    right operand's reflected [__eq__], then identity. *)
Definition py_eq (a b : PyObj) : PyResult bool :=
  match eq_method a (ident b) with
  | Truth t => Return t
  | EqRaise e => Raise e
  | NotImplemented =>
      match eq_method b (ident a) with
      | Truth t => Return t
      | EqRaise e => Raise e
      | NotImplemented => Return (py_is a b)
      end
  end.

(** [None.__bool__]: no arguments, answers [False]. *)
Definition None_bool (args : list Value) (kwargs : Kwargs) : PyResult Value :=
  match args, kwargs with
  | [], [] => Return (VBool false)
  | _, _ => Raise (OtherError "TypeError")
  end.

(** The members of [None] that a plain object does not have: in Python 3
    that is [__bool__] alone.  The members every object has ([__class__],
    [__repr__], ...) are found on any object, a [ProxyObject] included,
    without its [__getattr__] being run; they are listed neither here nor
    in [inst_attrs]. *)
Definition NoneType_attrs : gmap string Attr :=
  {[ "__bool__" := AMethod None_bool ]}.

(** [hasattr(obj, name)]: always a [bool]. *)
Definition hasattr (o : PyObj) (name : string) : Value :=
  match o with
  | PyNone => VBool (bool_decide (is_Some (NoneType_attrs !! name)))
  | PyInst i => VBool (bool_decide (is_Some (inst_attrs i !! name)))
  end.

(** [v is None] on a value. *)
Definition value_is_None (v : Value) : bool :=
  match v with
  | VNone => true
  | _ => false
  end.

(** [getattr(obj, name)]: the member, or [AttributeError]. *)
Definition getattr (o : PyObj) (name : string) : PyResult Attr :=
  match o with
  | PyNone =>
      match NoneType_attrs !! name with
      | Some a => Return a
      | None => Raise (AttributeError name)
      end
  | PyInst i =>
      match inst_attrs i !! name with
      | Some a => Return a
      | None => Raise (AttributeError name)
      end
  end.

(** [f( *args, **kwargs)] for a member [f]. *)
Definition py_call (a : Attr) (args : list Value) (kwargs : Kwargs) : PyResult Value :=
  match a with
  | AMethod f => f args kwargs
  | AData _ => Raise TypeError_not_callable
  end.

(** [obj.name( *args, **kwargs)]: the direct call on an object. *)
Definition invoke (o : PyObj) (name : string) (args : list Value) (kwargs : Kwargs)
  : PyResult Value :=
  do f <- getattr o name; py_call f args kwargs.

(** ** The registry *)

(** [real_objects = {}] *)
Abbreviation Registry := (gmap string PyObj).

Definition real_objects : Registry := ∅.

(** [real_objects.get(name)]: the stored object, or [None] when the key is
    missing. *)
Definition dict_get (reg : Registry) (name : string) : PyObj :=
  match reg !! name with
  | Some o => o
  | None => PyNone
  end.

(** [register_module], the body under the lock. *)
Definition register_module (module_service_name : string) (module : PyObj)
    (reg : Registry) : Registry :=
  let reg1 :=
    if bool_decide (is_Some (reg !! module_service_name))
    then delete module_service_name reg
    else reg in
  <[module_service_name := module]> reg1.

(** [unregister_module], the body under the lock.  The [and] evaluates
    [==] only when the key is present. *)
Definition unregister_module (module_service_name : string) (module : PyObj)
    (reg : Registry) : PyResult Registry :=
  match reg !! module_service_name with
  | None => Return reg
  | Some stored =>
      do t <- py_eq stored module;
      if t then Return (delete module_service_name reg) else Return reg
  end.

(** ** ProxyObject *)

Record ProxyObject : Type := mkProxy { _service_name : string }.

(** [ProxyObject.__init__] *)
Definition __init__ (service_name : string) : ProxyObject :=
  {| _service_name := service_name |}.

(** A call of a function declared [def f(self, method_name, *args,
    **kwargs)] with [self] and [method_name] given by position: a keyword
    argument with one of those two names is refused. *)
Definition bind_arguments (func : string) (params : list string) (kwargs : Kwargs)
  : PyResult unit :=
  if existsb (fun kv => bool_decide (kv.1 ∈ params)) kwargs
  then Raise (TypeError_multiple_values func)
  else Return tt.

Definition _call_async (self : ProxyObject) (reg : Registry) (method_name : string)
    (args : list Value) (kwargs : Kwargs) : PyResult Value :=
  do _u <- bind_arguments "_call_async" ["self"; "method_name"] kwargs;
  Raise (NotImplementedError "Asynchrnonous callbacks are not yet implemented").

Definition _call_sync (self : ProxyObject) (reg : Registry) (method_name : string)
    (args : list Value) (kwargs : Kwargs) : PyResult Value :=
  do _u <- bind_arguments "_call_sync" ["self"; "method_name"] kwargs;
  let obj := dict_get reg (_service_name self) in
  do f <- getattr obj method_name;
  py_call f args kwargs.

Definition call_proxy_method (self : ProxyObject) (reg : Registry) (method_name : string)
    (args : list Value) (kwargs : Kwargs) : PyResult Value :=
  do _u <- bind_arguments "call_proxy_method" ["self"; "method_name"] kwargs;
  if kw_in "callback_success" kwargs
  then do _r <- _call_async self reg method_name args kwargs; Return VNone
  else _call_sync self reg method_name args kwargs.

(** [partial(self.call_proxy_method, name)]: the bound method with its
    first argument fixed. *)
Record Partial : Type := mkPartial {
  partial_self : ProxyObject;
  partial_name : string
}.

(** Calling the partial object; the table is the one current at the time
    of the call. *)
Definition partial_call (p : Partial) (reg : Registry) (args : list Value)
    (kwargs : Kwargs) : PyResult Value :=
  call_proxy_method (partial_self p) reg (partial_name p) args kwargs.

(** [ProxyObject.__getattr__]: the hook Python runs for every attribute
    name that the proxy does not define itself. *)
Definition __getattr__ (self : ProxyObject) (reg : Registry) (name : string)
  : PyResult Partial :=
  let obj := dict_get reg (_service_name self) in
  if is_None obj
  then Raise (ModuleUnavailableException
                ("no module currently registered for " ++ _service_name self))
  else if value_is_None (hasattr obj name)
  then Raise (NoSuchMethodException
                ("service " ++ _service_name self ++
                 " does not respond to the method " ++ name))
  else Return {| partial_self := self; partial_name := name |}.

(** [ProxyObject(service_name).name( *args, **kwargs)] evaluated against one
    table: attribute access, then the call of what it returned. *)
Definition proxy_invoke (self : ProxyObject) (reg : Registry) (name : string)
    (args : list Value) (kwargs : Kwargs) : PyResult Value :=
  do f <- __getattr__ self reg name; partial_call f reg args kwargs.

(** ** Threads and the lock

    [synchronized(proxy_lock)] wraps the two registry operations in
    [lock.acquire()] ... [lock.release()].  To see what the lock buys across
    threads, the statements that touch [real_objects] are run as atomic
    steps of threads over one shared table and one lock, interleaved by a
    schedule. *)

Inductive Instr : Type :=
| Acquire                            (* lock.acquire() *)
| Release                            (* lock.release() *)
| TestIn (name : string)             (* name in real_objects *)
| DelIfTrue (name : string)          (* del real_objects[name], when the test held *)
| Store (name : string) (o : PyObj)  (* real_objects[name] = o *)
| Get (name : string).               (* real_objects.get(name) *)

(** A thread: the statements it still has to run, the outcome of its last
    membership test, and what its last [get] returned. *)
Record Thread : Type := mkThread {
  code : list Instr;
  test : bool;
  got : option PyObj
}.

Record Config : Type := mkConfig {
  table : Registry;
  locked : bool;
  threads : list Thread
}.

Definition spawn (c : list Instr) : Thread :=
  {| code := c; test := false; got := None |}.

Definition start (reg : Registry) (progs : list (list Instr)) : Config :=
  {| table := reg; locked := false; threads := spawn <$> progs |}.

(** [register_module] as the wrapper runs it. *)
Definition register_thread (module_service_name : string) (module : PyObj) : list Instr :=
  [Acquire; TestIn module_service_name; DelIfTrue module_service_name;
   Store module_service_name module; Release].

(** The lookup that opens [__getattr__] and [_call_sync]: a bare
    [real_objects.get], with no [acquire] before it. *)
Definition lookup_thread (service_name : string) : list Instr :=
  [Get service_name].

(** One statement of one thread.  [None]: the thread cannot move (it has
    finished, it waits for the lock, or it releases a lock nobody holds). *)
Definition exec (ins : Instr) (rest : list Instr) (t : Thread) (reg : Registry)
    (lk : bool) : option (Thread * Registry * bool) :=
  match ins with
  | Acquire =>
      if lk then None
      else Some ({| code := rest; test := test t; got := got t |}, reg, true)
  | Release =>
      if lk then Some ({| code := rest; test := test t; got := got t |}, reg, false)
      else None
  | TestIn name =>
      Some ({| code := rest; test := bool_decide (is_Some (reg !! name)); got := got t |},
            reg, lk)
  | DelIfTrue name =>
      Some ({| code := rest; test := test t; got := got t |},
            (if test t then delete name reg else reg), lk)
  | Store name o =>
      Some ({| code := rest; test := test t; got := got t |}, <[name := o]> reg, lk)
  | Get name =>
      Some ({| code := rest; test := test t; got := Some (dict_get reg name) |}, reg, lk)
  end.

Definition step (i : nat) (c : Config) : option Config :=
  match threads c !! i with
  | None => None
  | Some t =>
      match code t with
      | [] => None
      | ins :: rest =>
          match exec ins rest t (table c) (locked c) with
          | None => None
          | Some (t', reg', lk') =>
              Some {| table := reg'; locked := lk'; threads := <[i := t']> (threads c) |}
          end
      end
  end.

(** Run the threads in the order the schedule names them. *)
Fixpoint run (schedule : list nat) (c : Config) : option Config :=
  match schedule with
  | [] => Some c
  | i :: rest =>
      match step i c with
      | None => None
      | Some c' => run rest c'
      end
  end.

Definition finished (c : Config) : bool :=
  forallb (fun t => bool_decide (code t = [])) (threads c).

(** What thread [i] last read from the table. *)
Definition observed (i : nat) (c : Config) : option PyObj :=
  match threads c !! i with
  | Some t => got t
  | None => None
  end.

(** ** Sample modules and calls, used to instantiate the statements *)

(** [def add(self, x, y): return x + y] *)
Definition add_method (args : list Value) (kwargs : Kwargs) : PyResult Value :=
  match args, kwargs with
  | [VInt x; VInt y], [] => Return (VInt (x + y))
  | _, _ => Raise (OtherError "TypeError")
  end.

(** [def count(self, **kw): return len(kw)] *)
Definition count_method (args : list Value) (kwargs : Kwargs) : PyResult Value :=
  match args with
  | [] => Return (VInt (Z.of_nat (length kwargs)))
  | _ => Raise (OtherError "TypeError")
  end.

(** A plain object with two methods and one data member. *)
Definition calculator (n : nat) : Instance :=
  {| inst_id := n;
     inst_eq := None;
     inst_attrs := {[ "add" := AMethod add_method;
                      "count" := AMethod count_method;
                      "version" := AData (VInt 1) ]} |}.

(** An instance of a class whose [__eq__] compares by value: any two of
    its instances (here those with identities 1 and 2) are equal. *)
Definition twin (n : nat) : Instance :=
  {| inst_id := n;
     inst_eq := Some (fun other => Truth (bool_decide (other ∈ [IdObj 1; IdObj 2])));
     inst_attrs := ∅ |}.

(** The instance's class inherits [object.__eq__]. *)
Definition default_eq (o : PyObj) : Prop :=
  match o with
  | PyNone => True
  | PyInst i => inst_eq i = None
  end.

(** ** provide_proxy *)

(** A class, as far as building its instances goes: the two names the
    decorator reads, the class's own [__eq__] if it defines one, the
    members an instance exposes before any initialiser has run, and the
    initialiser.  The initialiser is given the members of [self] and the
    arguments of the call; it answers with the members of [self] as it
    leaves them and with whether it returned or raised.  (Initialisers
    that only work on [self]; one that itself edits [real_objects] is not
    covered.) *)
Record PyClass : Type := mkClass {
  cls_module : string;
  cls_name : string;
  cls_eq : option (Ident -> EqOutcome);
  cls_members : gmap string Attr;
  cls_init : gmap string Attr -> list Value -> Kwargs -> gmap string Attr * PyResult unit
}.

(** The bare instance that the interpreter hands to [__init__]; [n] is its
    identity. *)
Definition new_instance (cls : PyClass) (n : nat) : Instance :=
  {| inst_id := n; inst_eq := cls_eq cls; inst_attrs := cls_members cls |}.

(** ['.'.join([self.__module__, self.__class__.__name__])], for [self] an
    instance of [cls]. *)
Definition service_name_of (cls : PyClass) : string :=
  cls_module cls ++ "." ++ cls_name cls.

(** The table holds references: when an object's members change, every
    entry that holds that object shows the change. *)
Definition write_through (o : Instance) (reg : Registry) : Registry :=
  (fun v => if py_is v (PyInst o) then PyInst o else v) <$> reg.

(** No entry of the table holds an object with identity [n]. *)
Definition fresh (n : nat) (reg : Registry) : bool :=
  bool_decide (map_Forall (fun _ v => ident v <> IdObj n) reg).

(** [provide_proxy(original_class)]: the [__init__] it puts in place of
    [orig_init], run on [self], an instance of [cls] ([original_class]
    itself, or a subclass that inherits the initialiser).  It registers
    [self] first and runs [orig_init] second.  The result is the table,
    [self] as the initialiser left it, and the outcome. *)
Definition provide_proxy (original_class cls : PyClass) (self : Instance)
    (args : list Value) (kwargs : Kwargs) (reg : Registry)
  : Registry * Instance * PyResult unit :=
  match bind_arguments "__init__" ["self"] kwargs with
  | Raise e => (reg, self, Raise e)
  | Return _ =>
      let reg1 := register_module (service_name_of cls) (PyInst self) reg in
      let '(attrs, outcome) := cls_init original_class (inst_attrs self) args kwargs in
      let self' := {| inst_id := inst_id self; inst_eq := inst_eq self;
                      inst_attrs := attrs |} in
      (write_through self' reg1, self', outcome)
  end.

(** [cls( *args, **kwargs)] once [provide_proxy] has been applied: a new
    object, then the initialiser; the call gives the object unless the
    initialiser raised. *)
Definition construct (original_class cls : PyClass) (n : nat)
    (args : list Value) (kwargs : Kwargs) (reg : Registry)
  : Registry * PyResult Instance :=
  let '(reg', self', outcome) :=
    provide_proxy original_class cls (new_instance cls n) args kwargs reg in
  (reg', do _u <- outcome; Return self').

(** A sample class:
    [class Calculator: def __init__(self, *a): self.partial = 0; check(a);
    self.ready = True], with the methods of [calculator]; the check fails
    when positional arguments are given. *)
Definition Calculator : PyClass :=
  {| cls_module := "calc";
     cls_name := "Calculator";
     cls_eq := None;
     cls_members := {[ "add" := AMethod add_method; "count" := AMethod count_method ]};
     cls_init := fun attrs args _ =>
       match args with
       | [] => (<["ready" := AData (VBool true)]> (<["partial" := AData (VInt 0)]> attrs),
                Return tt)
       | _ => (<["partial" := AData (VInt 0)]> attrs, Raise (OtherError "ValueError"))
       end |}.

(** [class Scientific(Calculator): pass] *)
Definition Scientific : PyClass :=
  {| cls_module := "calc";
     cls_name := "Scientific";
     cls_eq := None;
     cls_members := cls_members Calculator;
     cls_init := cls_init Calculator |}.

(** * Properties *)

(** ** Shared facts about the table and about argument binding *)

Lemma register_module_insert (N : string) (o : PyObj) (reg : Registry) :
  register_module N o reg = <[N := o]> reg.
Proof.
  unfold register_module. case_bool_decide as H; [|done].
  by rewrite insert_delete_eq.
Qed.

Lemma lookup_register_eq (N : string) (o : PyObj) (reg : Registry) :
  register_module N o reg !! N = Some o.
Proof. rewrite register_module_insert. apply lookup_insert_eq. Qed.

Lemma lookup_register_ne (N N' : string) (o : PyObj) (reg : Registry) :
  N ≠ N' -> register_module N o reg !! N' = reg !! N'.
Proof. intros H. rewrite register_module_insert. by apply lookup_insert_ne. Qed.

Lemma dict_get_register (N : string) (o : PyObj) (reg : Registry) :
  dict_get (register_module N o reg) N = o.
Proof. unfold dict_get. by rewrite lookup_register_eq. Qed.

Lemma dict_get_Some (N : string) (o : PyObj) (reg : Registry) :
  reg !! N = Some o -> dict_get reg N = o.
Proof. unfold dict_get. by intros ->. Qed.

Lemma dict_get_None (N : string) (reg : Registry) :
  reg !! N = None -> dict_get reg N = PyNone.
Proof. unfold dict_get. by intros ->. Qed.

Lemma kw_in_cons (key : string) (kv : string * Value) (kwargs : Kwargs) :
  kw_in key (kv :: kwargs) = bool_decide (kv.1 = key) || kw_in key kwargs.
Proof. reflexivity. Qed.

Lemma bind_arguments_ok (func : string) (kwargs : Kwargs) :
  kw_in "self" kwargs = false ->
  kw_in "method_name" kwargs = false ->
  bind_arguments func ["self"; "method_name"] kwargs = Return tt.
Proof.
  intros Hs Hm. unfold bind_arguments.
  replace (existsb _ kwargs) with false; [done|].
  symmetry. induction kwargs as [|kv l IH]; [done|].
  rewrite kw_in_cons in Hs, Hm.
  apply orb_false_iff in Hs as [Hs1 Hs2], Hm as [Hm1 Hm2].
  apply bool_decide_eq_false in Hs1, Hm1.
  cbn [existsb]. rewrite (IH Hs2 Hm2), orb_false_r.
  apply bool_decide_eq_false. rewrite !elem_of_cons, elem_of_nil. tauto.
Qed.

Lemma bind_arguments_clash (func key : string) (kwargs : Kwargs) :
  key ∈ ["self"; "method_name"] ->
  kw_in key kwargs = true ->
  bind_arguments func ["self"; "method_name"] kwargs
  = Raise (TypeError_multiple_values func).
Proof.
  intros Hk Hin. unfold bind_arguments.
  replace (existsb _ kwargs) with true; [done|].
  symmetry. apply existsb_exists. apply existsb_exists in Hin as (kv & Hkv & Heq).
  exists kv. split; [done|]. apply bool_decide_eq_true in Heq.
  apply bool_decide_eq_true. by rewrite Heq.
Qed.

(** The attribute hook never takes its second [raise]: [hasattr] answers
    with a [bool], and a [bool] is not [None]. *)
Lemma hasattr_not_None (o : PyObj) (name : string) :
  value_is_None (hasattr o name) = false.
Proof. by destruct o. Qed.

Lemma getattr_hook_registered (N name : string) (A : Instance) (reg : Registry) :
  reg !! N = Some (PyInst A) ->
  __getattr__ (__init__ N) reg name
  = Return {| partial_self := __init__ N; partial_name := name |}.
Proof.
  intros H. unfold __getattr__. cbn [_service_name __init__].
  by rewrite (dict_get_Some _ _ _ H).
Qed.

Lemma getattr_hook_unavailable (N name : string) (reg : Registry) :
  dict_get reg N = PyNone ->
  __getattr__ (__init__ N) reg name
  = Raise (ModuleUnavailableException ("no module currently registered for " ++ N)).
Proof.
  intros H. unfold __getattr__. cbn [_service_name __init__]. by rewrite H.
Qed.

Lemma proxy_invoke_unavailable (N m : string) (reg : Registry)
    (args : list Value) (kwargs : Kwargs) :
  reg !! N = None ->
  proxy_invoke (__init__ N) reg m args kwargs
  = Raise (ModuleUnavailableException ("no module currently registered for " ++ N)).
Proof.
  intros H. unfold proxy_invoke.
  by rewrite (getattr_hook_unavailable N m reg (dict_get_None _ _ H)).
Qed.

(** A synchronous call whose keywords do not collide with the parameter
    names of the call path reaches the registered object's member. *)
Lemma call_proxy_method_sync (self : ProxyObject) (reg : Registry) (m : string)
    (args : list Value) (kwargs : Kwargs) :
  kw_in "callback_success" kwargs = false ->
  kw_in "self" kwargs = false ->
  kw_in "method_name" kwargs = false ->
  call_proxy_method self reg m args kwargs
  = invoke (dict_get reg (_service_name self)) m args kwargs.
Proof.
  intros Hc Hs Hm. unfold call_proxy_method, _call_sync.
  rewrite !(bind_arguments_ok _ _ Hs Hm). cbn [bind]. by rewrite Hc.
Qed.

Lemma proxy_invoke_sync (N m : string) (A : Instance) (reg : Registry)
    (args : list Value) (kwargs : Kwargs) :
  reg !! N = Some (PyInst A) ->
  kw_in "callback_success" kwargs = false ->
  kw_in "self" kwargs = false ->
  kw_in "method_name" kwargs = false ->
  proxy_invoke (__init__ N) reg m args kwargs = invoke (PyInst A) m args kwargs.
Proof.
  intros HA Hc Hs Hm. unfold proxy_invoke.
  rewrite (getattr_hook_registered _ _ _ _ HA). cbn [bind]. unfold partial_call.
  cbn [partial_self partial_name].
  rewrite (call_proxy_method_sync _ _ _ _ _ Hc Hs Hm). cbn [_service_name __init__].
  by rewrite (dict_get_Some _ _ _ HA).
Qed.

Lemma py_eq_default (a b : PyObj) :
  default_eq a -> default_eq b -> py_eq a b = Return (py_is a b).
Proof.
  intros Ha Hb. unfold py_eq, py_is.
  assert (Ea : eq_method a = object_eq (ident a)).
  { destruct a as [|i]; [done|]. cbn in *. by rewrite Ha. }
  assert (Eb : eq_method b = object_eq (ident b)).
  { destruct b as [|i]; [done|]. cbn in *. by rewrite Hb. }
  rewrite Ea, Eb. unfold object_eq.
  case_bool_decide as H1; [done|].
  case_bool_decide as H2; [congruence|done].
Qed.

Lemma py_is_refl (a : PyObj) : py_is a a = true.
Proof. unfold py_is. by apply bool_decide_eq_true. Qed.

(** ** Resolution failures *)

(** C1, on the code: with [A] registered under [N] and no callable member
    [m] on [A], the attribute hook does not raise [NoSuchMethodException]
    (its test [hasattr(obj, name) is None] is never true); [Proxy(N).m()]
    goes on to the call and fails there with the interpreter's
    [AttributeError] (member missing) or [TypeError] (member not
    callable). *)
Theorem unknown_method_not_reported (N m : string) (A : Instance) (reg : Registry) :
  reg !! N = Some (PyInst A) ->
  (forall f, inst_attrs A !! m <> Some (AMethod f)) ->
  (forall msg, __getattr__ (__init__ N) reg m <> Raise (NoSuchMethodException msg)) /\
  exists e, proxy_invoke (__init__ N) reg m [] [] = Raise e /\
            (e = AttributeError m \/ e = TypeError_not_callable).
Proof.
  intros HA Hm. split.
  - intros msg. by rewrite (getattr_hook_registered _ _ _ _ HA).
  - rewrite (proxy_invoke_sync N m A reg [] [] HA) by reflexivity.
    unfold invoke, getattr. destruct (inst_attrs A !! m) as [[v|f]|] eqn:E.
    + exists TypeError_not_callable. cbn. auto.
    + by destruct (Hm f).
    + exists (AttributeError m). cbn. auto.
Qed.

Lemma unknown_method_not_reported_witness :
  proxy_invoke (__init__ "svc") {[ "svc" := PyInst (calculator 1) ]} "foo" [] []
  = Raise (AttributeError "foo").
Proof.
  destruct (unknown_method_not_reported "svc" "foo" (calculator 1)
              {[ "svc" := PyInst (calculator 1) ]}) as [_ [e [He _]]].
  - reflexivity.
  - intros f. vm_compute. discriminate.
  - reflexivity.
Defined.

(** C2: with nothing stored under [N], resolving any method name through
    a proxy bound to [N] raises [ModuleUnavailableException] whose message
    names [N]; so does the whole call, whatever its arguments. *)
Theorem unregistered_name_unavailable (N m : string) (reg : Registry) :
  reg !! N = None ->
  __getattr__ (__init__ N) reg m
  = Raise (ModuleUnavailableException ("no module currently registered for " ++ N)) /\
  forall args kwargs,
    proxy_invoke (__init__ N) reg m args kwargs
    = Raise (ModuleUnavailableException ("no module currently registered for " ++ N)).
Proof.
  intros H. pose proof (getattr_hook_unavailable N m reg (dict_get_None _ _ H)) as E.
  split; [exact E|]. intros args kwargs. unfold proxy_invoke. by rewrite E.
Qed.

Lemma unregistered_name_unavailable_witness :
  __getattr__ (__init__ "svc") ∅ "add"
  = Raise (ModuleUnavailableException "no module currently registered for svc").
Proof.
  apply (unregistered_name_unavailable "svc" "add" ∅). reflexivity.
Defined.

(** ** The synchronous call *)

(** C3, on the code: the synchronous call is not a full pass-through.  A
    keyword argument named [method_name] is accepted by the registered
    object's method ([A.count(method_name=7)] returns 1) but the same call
    through the proxy raises [TypeError]: the call path's own parameter
    [method_name] captures the caller's keyword. *)
Lemma sync_call_keyword_clash :
  let reg : Registry := {[ "svc" := PyInst (calculator 1) ]} in
  let kwargs := [("method_name", VInt 7)] in
  reg !! "svc" = Some (PyInst (calculator 1)) /\
  inst_attrs (calculator 1) !! "count" = Some (AMethod count_method) /\
  kw_in "callback_success" kwargs = false /\
  invoke (PyInst (calculator 1)) "count" [] kwargs = Return (VInt 1) /\
  proxy_invoke (__init__ "svc") reg "count" [] kwargs
  = Raise (TypeError_multiple_values "call_proxy_method").
Proof. repeat split. Qed.

(** Where the pass-through does hold: with [A] registered under [N], [m] a
    method of [A] resolved through the proxy's hook, and a call without
    the keyword [callback_success] and without a keyword named [self] or
    [method_name], the proxy gives exactly what [A.m] gives on the same
    arguments: the same return value, or the same exception. *)
Theorem sync_call_pass_through (N m : string) (A : Instance)
    (f : list Value -> Kwargs -> PyResult Value) (reg : Registry)
    (args : list Value) (kwargs : Kwargs) :
  reg !! N = Some (PyInst A) ->
  inst_attrs A !! m = Some (AMethod f) ->
  kw_in "callback_success" kwargs = false ->
  kw_in "self" kwargs = false ->
  kw_in "method_name" kwargs = false ->
  invoke (PyInst A) m args kwargs = f args kwargs /\
  proxy_invoke (__init__ N) reg m args kwargs = f args kwargs.
Proof.
  intros HA Hf Hc Hs Hm.
  assert (E : invoke (PyInst A) m args kwargs = f args kwargs).
  { unfold invoke, getattr. by rewrite Hf. }
  split; [exact E|]. by rewrite (proxy_invoke_sync N m A reg args kwargs HA Hc Hs Hm).
Qed.

Lemma sync_call_pass_through_witness :
  proxy_invoke (__init__ "svc") {[ "svc" := PyInst (calculator 1) ]} "add"
    [VInt 2; VInt 3] []
  = Return (VInt 5).
Proof.
  apply (sync_call_pass_through "svc" "add" (calculator 1) add_method
           {[ "svc" := PyInst (calculator 1) ]} [VInt 2; VInt 3] []);
    reflexivity.
Defined.

(** ** Registration *)

Lemma register_thread_alone (N : string) (o : PyObj) (reg : Registry) :
  run [0; 0; 0; 0; 0] (start reg [register_thread N o])
  = Some {| table := register_module N o reg; locked := false;
            threads := [{| code := []; test := bool_decide (is_Some (reg !! N));
                           got := None |}] |}.
Proof. reflexivity. Qed.

(** C4: [register_module] installs the instance whatever was there before.
    After registering [A] and then [B] under [N], the entry for [N] is [B],
    the table is the one that registering [B] alone would have produced,
    and every other name is untouched.  Run through the locking wrapper
    from a free lock, the operation completes and releases the lock. *)
Theorem register_module_last_wins (N : string) (A B : PyObj) (reg : Registry) :
  register_module N B (register_module N A reg) !! N = Some B /\
  dict_get (register_module N B (register_module N A reg)) N = B /\
  register_module N B (register_module N A reg) = register_module N B reg /\
  (forall N', register_module N B reg !! N'
              = if decide (N = N') then Some B else reg !! N') /\
  (exists c, run [0; 0; 0; 0; 0] (start reg [register_thread N B]) = Some c /\
             finished c = true /\ locked c = false /\
             table c = register_module N B reg).
Proof.
  split; [apply lookup_register_eq|].
  split; [apply dict_get_register|].
  split; [rewrite !register_module_insert; apply insert_insert_eq|].
  split.
  - intros N'. rewrite register_module_insert. apply lookup_insert.
  - eexists. split; [apply register_thread_alone|]. done.
Qed.

(** C5 as stated fails: the comparison is [==], so an instance whose class
    defines [__eq__] by value is removed by an unregister call that passes
    a different, equal instance. *)
Lemma unregister_identity_counterexample :
  let reg := register_module "svc" (PyInst (twin 1)) real_objects in
  py_is (PyInst (twin 1)) (PyInst (twin 2)) = false /\
  reg !! "svc" = Some (PyInst (twin 1)) /\
  exists reg', unregister_module "svc" (PyInst (twin 2)) reg = Return reg' /\
               reg' !! "svc" = None.
Proof.
  split; [reflexivity|]. split; [reflexivity|].
  eexists. split; reflexivity.
Qed.

(** C5, amended: [unregister_module] removes the entry for [N] exactly when
    an entry is stored and [stored == X] is true, and leaves the table as
    it is when the name is absent or the comparison is false.  For [None]
    and for instances whose class does not define [__eq__] the comparison
    is identity and raises nothing, so: the entry is removed if and only
    if the stored object is [X] itself; after registering [A] then [B]
    (distinct), unregistering [A] leaves [B] in place; after registering
    [A], unregistering [A] leaves the name absent. *)
Theorem unregister_module_by_equality (N : string) (A B : PyObj) (reg : Registry) :
  default_eq A ->
  default_eq B ->
  (reg !! N = None -> unregister_module N A reg = Return reg) /\
  (forall S X t, reg !! N = Some S -> py_eq S X = Return t ->
     unregister_module N X reg = Return (if t then delete N reg else reg)) /\
  (reg !! N = Some B ->
     unregister_module N A reg = Return (if py_is B A then delete N reg else reg)) /\
  (py_is A B = false ->
     unregister_module N A (register_module N B (register_module N A reg))
     = Return (register_module N B (register_module N A reg)) /\
     register_module N B (register_module N A reg) !! N = Some B) /\
  (exists reg', unregister_module N A (register_module N A reg) = Return reg' /\
                reg' !! N = None).
Proof.
  intros HA HB.
  assert (Hgen : forall S X t r, r !! N = Some S -> py_eq S X = Return t ->
            unregister_module N X r = Return (if t then delete N r else r)).
  { intros S X t r HS Ht. unfold unregister_module. rewrite HS, Ht. cbn.
    by destruct t. }
  split; [|split; [|split; [|split]]].
  - intros H. unfold unregister_module. by rewrite H.
  - intros S X t. apply Hgen.
  - intros H. apply (Hgen B A _ reg H). by apply py_eq_default.
  - intros Hne. split; [|apply lookup_register_eq].
    rewrite (Hgen B A false).
    + done.
    + apply lookup_register_eq.
    + rewrite (py_eq_default B A HB HA). f_equal.
      unfold py_is in *. apply bool_decide_eq_false in Hne.
      apply bool_decide_eq_false. congruence.
  - eexists. split.
    + apply (Hgen A A true); [apply lookup_register_eq|].
      by rewrite (py_eq_default A A HA HA), py_is_refl.
    + apply lookup_delete_eq.
Qed.

Lemma unregister_module_by_equality_witness :
  let reg := register_module "svc" (PyInst (calculator 2))
               (register_module "svc" (PyInst (calculator 1)) real_objects) in
  unregister_module "svc" (PyInst (calculator 1)) reg = Return reg /\
  reg !! "svc" = Some (PyInst (calculator 2)).
Proof.
  destruct (unregister_module_by_equality "svc" (PyInst (calculator 1))
              (PyInst (calculator 2)) real_objects) as (_ & _ & _ & H & _).
  - reflexivity.
  - reflexivity.
  - apply H. reflexivity.
Defined.

(** ** Late binding *)

(** C6: building the proxy only records the name.  With nothing stored
    under [N], a call through the proxy raises
    [ModuleUnavailableException]; once [A] is registered the same proxy's
    call runs [A]'s method; once [B] replaces [A] it runs [B]'s; once the
    entry is gone it raises [ModuleUnavailableException] again. *)
Theorem proxy_late_binding (N m : string) (A B : Instance)
    (f g : list Value -> Kwargs -> PyResult Value) (reg : Registry)
    (args : list Value) (kwargs : Kwargs) :
  reg !! N = None ->
  inst_attrs A !! m = Some (AMethod f) ->
  inst_attrs B !! m = Some (AMethod g) ->
  kw_in "callback_success" kwargs = false ->
  kw_in "self" kwargs = false ->
  kw_in "method_name" kwargs = false ->
  let p := __init__ N in
  let unavailable :=
    Raise (ModuleUnavailableException ("no module currently registered for " ++ N)) in
  let regA := register_module N (PyInst A) reg in
  let regB := register_module N (PyInst B) regA in
  _service_name p = N /\
  proxy_invoke p reg m args kwargs = unavailable /\
  proxy_invoke p regA m args kwargs = f args kwargs /\
  proxy_invoke p regB m args kwargs = g args kwargs /\
  proxy_invoke p (delete N regB) m args kwargs = unavailable.
Proof.
  intros Hreg Hf Hg Hc Hs Hm p unavailable regA regB.
  split; [reflexivity|]. split; [|split; [|split]].
  - by apply proxy_invoke_unavailable.
  - unfold p, regA.
    rewrite (proxy_invoke_sync N m A _ args kwargs (lookup_register_eq _ _ _) Hc Hs Hm).
    unfold invoke, getattr. by rewrite Hf.
  - unfold p, regB.
    rewrite (proxy_invoke_sync N m B _ args kwargs (lookup_register_eq _ _ _) Hc Hs Hm).
    unfold invoke, getattr. by rewrite Hg.
  - apply proxy_invoke_unavailable. apply lookup_delete_eq.
Qed.

Lemma proxy_late_binding_witness :
  let p := __init__ "svc" in
  proxy_invoke p real_objects "add" [VInt 2; VInt 3] []
  = Raise (ModuleUnavailableException "no module currently registered for svc") /\
  proxy_invoke p (register_module "svc" (PyInst (calculator 1)) real_objects)
    "add" [VInt 2; VInt 3] []
  = Return (VInt 5).
Proof.
  destruct (proxy_late_binding "svc" "add" (calculator 1) (calculator 2)
              add_method add_method real_objects [VInt 2; VInt 3] [])
    as (_ & H1 & H2 & _); try reflexivity.
  split; [exact H1 | exact H2].
Defined.

(** C8: after [register_module(N, None)] the proxy sees [N] as
    unregistered: resolving any method name, and so any call, raises
    [ModuleUnavailableException], although the table has an entry for
    [N]. *)
Theorem register_None_unavailable (N m : string) (reg : Registry) :
  register_module N PyNone reg !! N = Some PyNone /\
  __getattr__ (__init__ N) (register_module N PyNone reg) m
  = Raise (ModuleUnavailableException ("no module currently registered for " ++ N)) /\
  forall args kwargs,
    proxy_invoke (__init__ N) (register_module N PyNone reg) m args kwargs
    = Raise (ModuleUnavailableException ("no module currently registered for " ++ N)).
Proof.
  pose proof (getattr_hook_unavailable N m _ (dict_get_register N PyNone reg)) as E.
  split; [apply lookup_register_eq|]. split; [exact E|].
  intros args kwargs. unfold proxy_invoke. by rewrite E.
Qed.




(** ** The asynchronous call *)

(** C7, on the code: a call that passes [callback_success] does not
    return; it raises [NotImplementedError] to the caller, and no callback
    is ever invoked. *)
Theorem async_call_not_implemented (N m : string) (A : Instance) (reg : Registry)
    (args : list Value) (kwargs : Kwargs) :
  reg !! N = Some (PyInst A) ->
  kw_in "callback_success" kwargs = true ->
  kw_in "self" kwargs = false ->
  kw_in "method_name" kwargs = false ->
  proxy_invoke (__init__ N) reg m args kwargs
  = Raise (NotImplementedError "Asynchrnonous callbacks are not yet implemented").
Proof.
  intros HA Hc Hs Hm. unfold proxy_invoke.
  rewrite (getattr_hook_registered _ _ _ _ HA). cbn [bind].
  unfold partial_call, call_proxy_method, _call_async.
  rewrite !(bind_arguments_ok _ _ Hs Hm). cbn [bind]. by rewrite Hc.
Qed.

Lemma async_call_not_implemented_witness :
  proxy_invoke (__init__ "svc") {[ "svc" := PyInst (calculator 1) ]} "add"
    [VInt 2; VInt 3] [("callback_success", VFun 1); ("callback_failure", VFun 2)]
  = Raise (NotImplementedError "Asynchrnonous callbacks are not yet implemented").
Proof.
  apply (async_call_not_implemented "svc" "add" (calculator 1)); reflexivity.
Defined.

(** ** The lock *)

(** The lock does exclude the writers from one another: a thread about to
    [acquire] cannot move while the lock is held. *)
Lemma acquire_blocked (i : nat) (t : Thread) (rest : list Instr) (c : Config) :
  threads c !! i = Some t ->
  code t = Acquire :: rest ->
  locked c = true ->
  step i c = None.
Proof. intros Ht Hc Hl. unfold step. by rewrite Ht, Hc; cbn; rewrite Hl. Qed.

(** A [get] moves whether or not the lock is held. *)
Lemma get_never_blocked (i : nat) (t : Thread) (name : string) (rest : list Instr)
    (c : Config) :
  threads c !! i = Some t ->
  code t = Get name :: rest ->
  exists c', step i c = Some c' /\ locked c' = locked c /\ table c' = table c /\
             observed i c' = Some (dict_get (table c) name).
Proof.
  intros Ht Hc. unfold step. rewrite Ht, Hc. cbn. eexists. split; [reflexivity|].
  cbn. split; [done|]. split; [done|]. unfold observed. cbn.
  rewrite list_lookup_insert_eq; [done|]. by eapply lookup_lt_Some.
Qed.

(** C10, on the code: the proxy's lookup does not take the lock.  While one
    thread replaces the instance under [N] (holding the lock, between its
    [del] and its assignment), another thread's lookup runs and finds
    nothing under [N], although [N] is registered before the replacement
    ([A]) and after it ([B]); run before or after the whole replacement, the
    same lookup finds [A] or [B]. *)
Theorem lookup_races_with_register (N : string) (A B : Instance) (reg : Registry) :
  reg !! N = Some (PyInst A) ->
  let c0 := start reg [register_thread N (PyInst B); lookup_thread N] in
  (exists c1 c2 c3,
     run [0; 0; 0] c0 = Some c1 /\ locked c1 = true /\
     step 1 c1 = Some c2 /\ locked c2 = true /\ observed 1 c2 = Some PyNone /\
     run [0; 0; 0; 1; 0; 0] c0 = Some c3 /\ finished c3 = true /\ locked c3 = false /\
     table c3 = register_module N (PyInst B) reg /\
     observed 1 c3 = Some PyNone) /\
  (exists c, run [1; 0; 0; 0; 0; 0] c0 = Some c /\ finished c = true /\
             observed 1 c = Some (PyInst A)) /\
  (exists c, run [0; 0; 0; 0; 0; 1] c0 = Some c /\ finished c = true /\
             observed 1 c = Some (PyInst B)).
Proof.
  intros HA c0.
  assert (Ht : bool_decide (is_Some (reg !! N)) = true).
  { apply bool_decide_eq_true. by rewrite HA. }
  split; [|split].
  - do 3 eexists. split; [reflexivity|]. split; [reflexivity|].
    split; [reflexivity|]. split; [reflexivity|].
    split.
    { cbn. rewrite Ht. unfold dict_get. by rewrite lookup_delete_eq. }
    split; [reflexivity|]. split; [reflexivity|]. split; [reflexivity|].
    split.
    { cbn. rewrite Ht. unfold register_module. by rewrite Ht. }
    cbn. rewrite Ht. unfold dict_get. by rewrite lookup_delete_eq.
  - eexists. split; [reflexivity|]. split; [reflexivity|].
    cbn. unfold dict_get. by rewrite HA.
  - eexists. split; [reflexivity|]. split; [reflexivity|].
    cbn. unfold dict_get. by rewrite lookup_insert_eq.
Qed.

Lemma lookup_races_with_register_witness :
  let c0 := start {[ "svc" := PyInst (calculator 1) ]}
              [register_thread "svc" (PyInst (calculator 2)); lookup_thread "svc"] in
  exists c, run [0; 0; 0; 1; 0; 0] c0 = Some c /\ finished c = true /\
            observed 1 c = Some PyNone.
Proof.
  destruct (lookup_races_with_register "svc" (calculator 1) (calculator 2)
              {[ "svc" := PyInst (calculator 1) ]}) as [(c1 & c2 & c3 & H) _].
  - reflexivity.
  - destruct H as (_ & _ & _ & _ & _ & H3 & H4 & _ & _ & H5).
    exists c3. split; [exact H3|]. split; [exact H4 | exact H5].
Defined.

(** * Further properties of the code *)

(** ** The registry operations together *)

Lemma unregister_module_cases (N : string) (X : PyObj) (reg r : Registry) :
  unregister_module N X reg = Return r ->
  (r = reg /\ (reg !! N = None \/ exists S, reg !! N = Some S /\ py_eq S X = Return false))
  \/ (r = delete N reg /\ exists S, reg !! N = Some S /\ py_eq S X = Return true).
Proof.
  unfold unregister_module. destruct (reg !! N) as [S|] eqn:E.
  - destruct (py_eq S X) as [[|]|e] eqn:Eq; cbn; intros [= <-]; eauto 6.
  - intros [= <-]. auto.
Qed.

(** Registering an object and unregistering it again (an object whose
    class keeps the inherited [__eq__]) leaves the name absent and the
    rest of the table as it was: an instance that was stored under the
    name before is not brought back, and a table that had no entry for the
    name is restored exactly. *)
Theorem register_unregister_round_trip (N : string) (A : PyObj) (reg : Registry) :
  default_eq A ->
  unregister_module N A (register_module N A reg) = Return (delete N reg) /\
  (reg !! N = None ->
   unregister_module N A (register_module N A reg) = Return reg).
Proof.
  intros HA.
  assert (E : unregister_module N A (register_module N A reg) = Return (delete N reg)).
  { unfold unregister_module. rewrite lookup_register_eq.
    rewrite (py_eq_default A A HA HA), py_is_refl. cbn.
    by rewrite register_module_insert, delete_insert_eq. }
  split; [exact E|]. intros Hn. by rewrite E, delete_id.
Qed.

Lemma register_unregister_round_trip_witness :
  let reg : Registry := {[ "svc" := PyInst (calculator 1) ]} in
  unregister_module "svc" (PyInst (calculator 2))
    (register_module "svc" (PyInst (calculator 2)) reg)
  = Return (delete "svc" reg).
Proof.
  destruct (register_unregister_round_trip "svc" (PyInst (calculator 2))
              {[ "svc" := PyInst (calculator 1) ]}) as [H _].
  - reflexivity.
  - exact H.
Defined.

(** When [unregister_module] returns, the table it leaves is the old one
    with at most the entry for the given name removed, and a second call
    with the same arguments changes nothing more. *)
Theorem unregister_module_idempotent (N : string) (X : PyObj) (reg r : Registry) :
  unregister_module N X reg = Return r ->
  (forall M, M <> N -> r !! M = reg !! M) /\
  (r !! N = None \/ r !! N = reg !! N) /\
  unregister_module N X r = Return r.
Proof.
  intros H. destruct (unregister_module_cases _ _ _ _ H)
    as [[-> Hc]|[-> (S & HS & Ht)]].
  - split; [done|]. split; [by right|]. exact H.
  - split; [intros M HM; by rewrite lookup_delete_ne|].
    split; [left; apply lookup_delete_eq|].
    unfold unregister_module. by rewrite lookup_delete_eq.
Qed.

Lemma unregister_module_idempotent_witness :
  let reg : Registry := {[ "svc" := PyInst (twin 1) ]} in
  unregister_module "svc" (PyInst (twin 2)) (delete "svc" reg)
  = Return (delete "svc" reg).
Proof.
  destruct (unregister_module_idempotent "svc" (PyInst (twin 2))
              {[ "svc" := PyInst (twin 1) ]}
              (delete "svc" {[ "svc" := PyInst (twin 1) ]})) as (_ & _ & H).
  - reflexivity.
  - exact H.
Defined.

(** Registrations under different names do not interfere: they can be
    made in either order. *)
Theorem register_module_commute (N M : string) (A B : PyObj) (reg : Registry) :
  N <> M ->
  register_module N A (register_module M B reg)
  = register_module M B (register_module N A reg).
Proof.
  intros H. rewrite !register_module_insert. by apply insert_insert_ne.
Qed.

Lemma register_module_commute_witness :
  register_module "a" (PyInst (calculator 1))
    (register_module "b" (PyInst (calculator 2)) real_objects)
  = register_module "b" (PyInst (calculator 2))
      (register_module "a" (PyInst (calculator 1)) real_objects).
Proof.
  apply (register_module_commute "a" "b"). discriminate.
Defined.

(** ** The proxy and the rest of the table *)



(** With a module registered under [N], a proxy call that passes a keyword
    named [self] or [method_name] raises [TypeError] from
    [call_proxy_method], whatever the method name (present on the module
    or not), the other arguments, and whether [callback_success] is passed
    too: neither the module's method nor the asynchronous path is
    reached. *)
Theorem reserved_keyword_TypeError (N m key : string) (A : Instance) (reg : Registry)
    (args : list Value) (kwargs : Kwargs) :
  reg !! N = Some (PyInst A) ->
  key ∈ ["self"; "method_name"] ->
  kw_in key kwargs = true ->
  proxy_invoke (__init__ N) reg m args kwargs
  = Raise (TypeError_multiple_values "call_proxy_method").
Proof.
  intros HA Hk Hin. unfold proxy_invoke.
  rewrite (getattr_hook_registered _ _ _ _ HA). cbn [bind].
  unfold partial_call, call_proxy_method.
  by rewrite (bind_arguments_clash _ key kwargs Hk Hin).
Qed.

Lemma reserved_keyword_TypeError_witness :
  proxy_invoke (__init__ "svc") {[ "svc" := PyInst (calculator 1) ]} "nothing"
    [] [("callback_success", VFun 1); ("self", VInt 0)]
  = Raise (TypeError_multiple_values "call_proxy_method").
Proof.
  apply (reserved_keyword_TypeError "svc" "nothing" "self" (calculator 1)).
  - reflexivity.
  - apply elem_of_cons. by left.
  - reflexivity.
Defined.

(** ** Two writers under the lock *)

(** One case split on the next thread to move: the schedule ends here, or
    names thread 0, thread 1, or a thread that does not exist. *)
Ltac next_move schedule Hrun Hfin :=
  destruct schedule as [|[|[|?]] schedule];
  [ injection Hrun as <-; try (cbn in Hfin; discriminate Hfin)
  | cbn in Hrun; try discriminate Hrun
  | cbn in Hrun; try discriminate Hrun
  | cbn in Hrun; try discriminate Hrun ].



(** A reader beside a writer: whatever the schedule, a lookup that runs
    next to a [register_module] call never waits and never disturbs it.
    The table ends as the call alone leaves it, and the lookup returns
    what the table held for its name before the call, after the call, or
    in between, once the call has deleted the old entry. *)
Theorem lookup_thread_harmless (N M : string) (B : PyObj) (reg : Registry)
    (schedule : list nat) (c : Config) :
  run schedule (start reg [register_thread N B; lookup_thread M]) = Some c ->
  finished c = true ->
  locked c = false /\
  table c = register_module N B reg /\
  (observed 1 c = Some (dict_get reg M) \/
   observed 1 c = Some (dict_get (delete N reg) M) \/
   observed 1 c = Some (dict_get (register_module N B reg) M)).
Proof.
  intros Hrun Hfin. unfold start in Hrun. cbn in Hrun.
  assert (Hmid : dict_get (if bool_decide (is_Some (reg !! N))
                           then delete N reg else reg) M = dict_get reg M \/
                 dict_get (if bool_decide (is_Some (reg !! N))
                           then delete N reg else reg) M = dict_get (delete N reg) M).
  { case_bool_decide; auto. }
  do 7 (next_move schedule Hrun Hfin);
    (split; [reflexivity|]); (split; [reflexivity|]);
    try (left; reflexivity); try (right; right; reflexivity).
  all: unfold observed; cbn [threads lookup list_lookup got];
    destruct Hmid as [-> | ->]; auto.
Qed.

Lemma lookup_thread_harmless_witness :
  exists c,
    run [0; 0; 1; 0; 0; 0]
      (start {[ "svc" := PyInst (calculator 1) ]}
         [register_thread "svc" (PyInst (calculator 2)); lookup_thread "svc"])
    = Some c /\
    table c = register_module "svc" (PyInst (calculator 2))
                {[ "svc" := PyInst (calculator 1) ]}.
Proof.
  eexists. split; [vm_compute; reflexivity|].
  match goal with
  | |- context [table ?c] =>
      destruct (lookup_thread_harmless "svc" "svc" (PyInst (calculator 2))
                  {[ "svc" := PyInst (calculator 1) ]} [0; 0; 1; 0; 0; 0] c)
        as (_ & H & _)
  end.
  - vm_compute. reflexivity.
  - vm_compute. reflexivity.
  - exact H.
Defined.

(** ** provide_proxy *)

Lemma bind_arguments_self (func : string) (kwargs : Kwargs) :
  kw_in "self" kwargs = false ->
  bind_arguments func ["self"] kwargs = Return tt.
Proof.
  intros Hs. unfold bind_arguments.
  replace (existsb _ kwargs) with false; [done|].
  symmetry. induction kwargs as [|kv l IH]; [done|].
  rewrite kw_in_cons in Hs. apply orb_false_iff in Hs as [Hs1 Hs2].
  apply bool_decide_eq_false in Hs1.
  cbn [existsb]. rewrite (IH Hs2), orb_false_r.
  apply bool_decide_eq_false. rewrite elem_of_cons, elem_of_nil. tauto.
Qed.

Lemma fresh_lookup (n : nat) (reg : Registry) (k : string) (v : PyObj) :
  fresh n reg = true -> reg !! k = Some v -> ident v <> IdObj n.
Proof.
  unfold fresh. intros H Hk. apply bool_decide_eq_true in H. exact (H k v Hk).
Qed.

Lemma fresh_register (n : nat) (name : string) (o : PyObj) (reg : Registry) :
  fresh n reg = true -> ident o <> IdObj n ->
  fresh n (register_module name o reg) = true.
Proof.
  unfold fresh. intros H Ho. apply bool_decide_eq_true in H.
  apply bool_decide_eq_true. rewrite register_module_insert.
  by apply map_Forall_insert_2.
Qed.

(** Setting members of an object that only one entry refers to changes
    that entry and nothing else. *)
Lemma write_through_fresh (name : string) (o o' : Instance) (reg : Registry) :
  fresh (inst_id o) reg = true ->
  inst_id o' = inst_id o ->
  write_through o' (register_module name (PyInst o) reg)
  = register_module name (PyInst o') reg.
Proof.
  intros Hf Hid. rewrite !register_module_insert. unfold write_through.
  rewrite fmap_insert. f_equal.
  - unfold py_is. cbn. rewrite Hid. by rewrite bool_decide_eq_true_2.
  - apply map_eq. intros k. rewrite lookup_fmap.
    destruct (reg !! k) as [v|] eqn:E; [|done]. cbn. f_equal.
    unfold py_is. rewrite bool_decide_eq_false_2; [done|].
    cbn. rewrite Hid. by apply (fresh_lookup _ _ _ _ Hf E).
Qed.

(** What a construction leaves behind, whichever way the initialiser
    ends. *)
Lemma construct_table (original_class cls : PyClass) (n : nat)
    (args : list Value) (kwargs : Kwargs) (reg : Registry) :
  fresh n reg = true ->
  kw_in "self" kwargs = false ->
  let result := cls_init original_class (cls_members cls) args kwargs in
  let obj := {| inst_id := n; inst_eq := cls_eq cls; inst_attrs := result.1 |} in
  construct original_class cls n args kwargs reg
  = (register_module (service_name_of cls) (PyInst obj) reg,
     do _u <- result.2; Return obj).
Proof.
  intros Hf Hs result obj. unfold construct, provide_proxy.
  rewrite (bind_arguments_self _ _ Hs). cbn [new_instance inst_attrs inst_id inst_eq].
  fold result. destruct result as [attrs outcome] eqn:E. cbn [fst snd] in *.
  by rewrite (write_through_fresh _ (new_instance cls n)).
Qed.

(** Building an instance of a decorated class, when the initialiser
    returns: the call gives the initialised object, and that object is what
    the table holds under [module.ClassName].  A proxy bound to that name
    then reaches it: for a method name resolved through the proxy's hook,
    a call without the keyword [callback_success] and without a keyword
    named [self] or [method_name] gives what the same call on the object
    gives. *)
Theorem provide_proxy_registers (original_class cls : PyClass) (n : nat)
    (args : list Value) (kwargs : Kwargs) (reg : Registry)
    (attrs : gmap string Attr) :
  fresh n reg = true ->
  kw_in "self" kwargs = false ->
  cls_init original_class (cls_members cls) args kwargs = (attrs, Return tt) ->
  let obj := {| inst_id := n; inst_eq := cls_eq cls; inst_attrs := attrs |} in
  let name := cls_module cls ++ "." ++ cls_name cls in
  exists reg',
    construct original_class cls n args kwargs reg = (reg', Return obj) /\
    reg' !! name = Some (PyInst obj) /\
    forall m a k,
      kw_in "callback_success" k = false ->
      kw_in "self" k = false ->
      kw_in "method_name" k = false ->
      proxy_invoke (__init__ name) reg' m a k = invoke (PyInst obj) m a k.
Proof.
  intros Hf Hs Hinit obj name. eexists. split; [|split].
  - rewrite (construct_table _ _ _ _ _ _ Hf Hs). by rewrite Hinit.
  - apply lookup_register_eq.
  - intros m a k Hc Hks Hkm. apply proxy_invoke_sync; [|done..].
    apply lookup_register_eq.
Qed.

Lemma provide_proxy_registers_witness :
  exists obj reg',
    construct Calculator Calculator 1 [] [] real_objects = (reg', Return obj) /\
    proxy_invoke (__init__ "calc.Calculator") reg' "add" [VInt 2; VInt 3] []
    = Return (VInt 5).
Proof.
  destruct (provide_proxy_registers Calculator Calculator 1 [] [] real_objects
              (<["ready" := AData (VBool true)]>
                 (<["partial" := AData (VInt 0)]> (cls_members Calculator))))
    as (reg' & H1 & _ & H3); try reflexivity.
  eexists _, reg'. split; [exact H1|].
  etransitivity; [apply (H3 "add" [VInt 2; VInt 3] []); reflexivity|].
  reflexivity.
Defined.

(** Building an instance of a decorated class, when the initialiser
    raises: the call raises the same exception, but the object was
    registered before the initialiser ran and stays registered, as the
    initialiser left it; whatever was stored under the name before is
    gone, and the other names are untouched. *)
Theorem provide_proxy_failed_init_stays_registered (original_class cls : PyClass)
    (n : nat) (args : list Value) (kwargs : Kwargs) (reg : Registry)
    (attrs : gmap string Attr) (e : Exn) :
  fresh n reg = true ->
  kw_in "self" kwargs = false ->
  cls_init original_class (cls_members cls) args kwargs = (attrs, Raise e) ->
  let half := {| inst_id := n; inst_eq := cls_eq cls; inst_attrs := attrs |} in
  let name := cls_module cls ++ "." ++ cls_name cls in
  exists reg',
    construct original_class cls n args kwargs reg = (reg', Raise e) /\
    reg' !! name = Some (PyInst half) /\
    reg' !! name <> reg !! name /\
    forall other, other <> name -> reg' !! other = reg !! other.
Proof.
  intros Hf Hs Hinit half name. eexists. split; [|split; [|split]].
  - rewrite (construct_table _ _ _ _ _ _ Hf Hs). by rewrite Hinit.
  - apply lookup_register_eq.
  - rewrite lookup_register_eq. intros Heq. symmetry in Heq.
    by apply (fresh_lookup _ _ _ _ Hf Heq).
  - intros other Hne. by apply lookup_register_ne.
Qed.

Lemma provide_proxy_failed_init_stays_registered_witness :
  exists reg',
    construct Calculator Calculator 2 [VInt 0] []
      {[ "calc.Calculator" := PyInst (calculator 1) ]}
    = (reg', Raise (OtherError "ValueError")) /\
    proxy_invoke (__init__ "calc.Calculator") reg' "version" [] []
    = Raise (AttributeError "version").
Proof.
  destruct (provide_proxy_failed_init_stays_registered Calculator Calculator 2
              [VInt 0] [] {[ "calc.Calculator" := PyInst (calculator 1) ]}
              (<["partial" := AData (VInt 0)]> (cls_members Calculator))
              (OtherError "ValueError"))
    as (reg' & H1 & _); try reflexivity.
  exists reg'. split; [exact H1|].
  cbn in H1. injection H1 as <-. reflexivity.
Defined.

(** A keyword argument named [self] is refused by the installed
    initialiser before it registers anything: the call raises [TypeError]
    and the table is as it was. *)
Theorem provide_proxy_self_keyword (original_class cls : PyClass) (n : nat)
    (args : list Value) (kwargs : Kwargs) (reg : Registry) :
  kw_in "self" kwargs = true ->
  construct original_class cls n args kwargs reg
  = (reg, Raise (TypeError_multiple_values "__init__")).
Proof.
  intros Hs. unfold construct, provide_proxy.
  assert (E : bind_arguments "__init__" ["self"] kwargs
              = Raise (TypeError_multiple_values "__init__")).
  { unfold bind_arguments. replace (existsb _ kwargs) with true; [done|].
    symmetry. apply existsb_exists. apply existsb_exists in Hs as (kv & Hkv & Heq).
    exists kv. split; [done|]. apply bool_decide_eq_true in Heq.
    apply bool_decide_eq_true. rewrite Heq. apply elem_of_cons. by left. }
  by rewrite E.
Qed.

Lemma provide_proxy_self_keyword_witness :
  construct Calculator Calculator 1 [] [("self", VInt 0)] real_objects
  = (real_objects, Raise (TypeError_multiple_values "__init__")).
Proof.
  apply (provide_proxy_self_keyword Calculator Calculator 1 [] [("self", VInt 0)]).
  reflexivity.
Defined.

(** The name is computed from the object being built, not from the class
    that was decorated: an instance of a subclass that inherits the
    installed initialiser is registered under the subclass's name, and the
    entry under the decorated class's name is left as it was. *)
Theorem provide_proxy_subclass_name (original_class cls : PyClass) (n : nat)
    (args : list Value) (kwargs : Kwargs) (reg : Registry) :
  fresh n reg = true ->
  kw_in "self" kwargs = false ->
  service_name_of cls <> service_name_of original_class ->
  let reg' := (construct original_class cls n args kwargs reg).1 in
  ident (dict_get reg' (service_name_of cls)) = IdObj n /\
  reg' !! service_name_of original_class = reg !! service_name_of original_class.
Proof.
  intros Hf Hs Hne reg'. unfold reg'.
  rewrite (construct_table _ _ _ _ _ _ Hf Hs). cbn [fst]. split.
  - by rewrite dict_get_register.
  - by apply lookup_register_ne.
Qed.

Lemma provide_proxy_subclass_name_witness :
  let reg' := (construct Calculator Scientific 1 [] [] real_objects).1 in
  ident (dict_get reg' "calc.Scientific") = IdObj 1 /\
  reg' !! "calc.Calculator" = None.
Proof.
  apply (provide_proxy_subclass_name Calculator Scientific 1 [] [] real_objects);
    [reflexivity | reflexivity | discriminate].
Defined.

(** Two instances of one decorated class (one that keeps the inherited
    [__eq__]), built one after the other: the second takes the name.
    Unregistering the first afterwards changes nothing; unregistering the
    second clears the name. *)
Theorem provide_proxy_second_instance (cls : PyClass) (n1 n2 : nat)
    (args1 args2 : list Value) (kwargs1 kwargs2 : Kwargs) (reg : Registry) :
  cls_eq cls = None ->
  n1 <> n2 ->
  fresh n1 reg = true ->
  fresh n2 reg = true ->
  kw_in "self" kwargs1 = false ->
  kw_in "self" kwargs2 = false ->
  let name := service_name_of cls in
  let first := {| inst_id := n1; inst_eq := cls_eq cls;
                  inst_attrs := (cls_init cls (cls_members cls) args1 kwargs1).1 |} in
  let second := {| inst_id := n2; inst_eq := cls_eq cls;
                   inst_attrs := (cls_init cls (cls_members cls) args2 kwargs2).1 |} in
  let reg1 := (construct cls cls n1 args1 kwargs1 reg).1 in
  let reg2 := (construct cls cls n2 args2 kwargs2 reg1).1 in
  reg1 !! name = Some (PyInst first) /\
  reg2 !! name = Some (PyInst second) /\
  unregister_module name (PyInst first) reg2 = Return reg2 /\
  unregister_module name (PyInst second) reg2 = Return (delete name reg).
Proof.
  intros Heq Hne Hf1 Hf2 Hs1 Hs2 name first second reg1 reg2.
  assert (E1 : reg1 = register_module name (PyInst first) reg).
  { unfold reg1. by rewrite (construct_table _ _ _ _ _ _ Hf1 Hs1). }
  assert (Hf2' : fresh n2 reg1 = true).
  { rewrite E1. apply fresh_register; [done|]. cbn. congruence. }
  assert (E2 : reg2 = register_module name (PyInst second) reg1).
  { unfold reg2. by rewrite (construct_table _ _ _ _ _ _ Hf2' Hs2). }
  assert (L2 : reg2 !! name = Some (PyInst second))
    by (rewrite E2; apply lookup_register_eq).
  split; [rewrite E1; apply lookup_register_eq|]. split; [exact L2|]. split.
  - unfold unregister_module. rewrite L2.
    rewrite (py_eq_default (PyInst second) (PyInst first)) by exact Heq.
    unfold py_is. cbn. rewrite bool_decide_eq_false_2; [done|]. congruence.
  - unfold unregister_module. rewrite L2.
    rewrite (py_eq_default (PyInst second) (PyInst second)) by exact Heq.
    rewrite py_is_refl. cbn. f_equal. rewrite E2, E1, !register_module_insert.
    by rewrite insert_insert_eq, delete_insert_eq.
Qed.

Lemma provide_proxy_second_instance_witness :
  let reg1 := (construct Calculator Calculator 1 [] [] real_objects).1 in
  let reg2 := (construct Calculator Calculator 2 [] [] reg1).1 in
  ident (dict_get reg2 "calc.Calculator") = IdObj 2.
Proof.
  destruct (provide_proxy_second_instance Calculator 1 2 [] [] [] [] real_objects)
    as (_ & H & _).
  - reflexivity.
  - discriminate.
  - reflexivity.
  - reflexivity.
  - reflexivity.
  - reflexivity.
  - intros reg1 reg2. unfold dict_get.
    change "calc.Calculator" with (service_name_of Calculator).
    unfold reg2, reg1. rewrite H. reflexivity.
Defined.
